(** * Mergington High School activities API (src/app.py)

    A shallow embedding of the FastAPI application: the two module-level
    dictionaries (TEACHERS and activities) form the store that every
    handler reads or mutates; a handler is a computation in a small
    state-and-exception monad; HTTPException is the exception the handlers
    raise.  The theorems at the end relate the handlers to the behaviour
    the specification describes. *)

From Stdlib Require Import ZArith String Ascii List Bool Lia.
From stdpp Require Import gmap strings list fin_maps.

Local Open Scope Z_scope.
Local Open Scope string_scope.
Local Open Scope list_scope.

(** ** Python strings

    A str is a [string]; each character stands for one code point below
    256.  [isspace] is str.isspace on that range (the characters that
    str.strip() removes when called without an argument). *)

Module PyStr.

Definition isspace (c : ascii) : bool :=
  let n := N_of_ascii c in
  ((9 <=? n) && (n <=? 13) || (28 <=? n) && (n <=? 32)
   || (n =? 133) || (n =? 160))%N.

Fixpoint lstrip_chars (l : list ascii) : list ascii :=
  match l with
  | [] => []
  | c :: l' => if isspace c then lstrip_chars l' else l
  end.

Definition rstrip_chars (l : list ascii) : list ascii :=
  rev (lstrip_chars (rev l)).

(** s.strip() *)
Definition strip (s : string) : string :=
  string_of_list_ascii (rstrip_chars (lstrip_chars (list_ascii_of_string s))).

(** every character of [s] is white space *)
Definition blank (s : string) : Prop :=
  Forall (fun c => isspace c = true) (list_ascii_of_string s).

(** bool(s) of a str: the empty string is falsy *)
Definition truthy (s : string) : bool := negb (String.eqb s "").

(** The characters http.cookies refuses in a cookie: [\x00-\x1F\x7F]. *)
Definition is_control (c : ascii) : bool :=
  let n := N_of_ascii c in ((n <=? 31) || (n =? 127))%N.

(** http.cookies._has_control_character on one str *)
Definition has_control_character (s : string) : bool :=
  existsb is_control (list_ascii_of_string s).

End PyStr.

(** ** JSON values

    What json.load, a request body or a returned dict holds.  Numbers are
    integers here; an object keeps its fields in order. *)

#[local] Set Warnings "-register-all".
Inductive json : Type :=
| JNull
| JBool (b : bool)
| JNum (z : Z)
| JStr (s : string)
| JList (l : list json)
| JObj (fields : list (string * json)).
#[local] Set Warnings "register-all".

(** [stored == v] for a str [stored] and an arbitrary JSON value [v]:
    a str equals only a str with the same characters. *)
Definition str_eq_json (stored : string) (v : json) : bool :=
  match v with
  | JStr s => String.eqb stored s
  | _ => false
  end.

(** ** The store: the module's two global dictionaries *)

Record Activity : Type := mkActivity {
  description : string;
  schedule : string;
  max_participants : Z;
  participants : list string
}.

(** activity["participants"].append(email): the dictionary entry is
    mutated in place, every other key of the entry is kept. *)
Definition append_participant (a : Activity) (email : string) : Activity :=
  {| description := description a;
     schedule := schedule a;
     max_participants := max_participants a;
     participants := participants a ++ [email] |}.

(** TEACHERS holds the user names and passwords as strs, the shape of
    teachers.json that the application documents; a file with other
    values is outside this store (see [Startup.load_TEACHERS]). *)
Record Store : Type := mkStore {
  TEACHERS : gmap string string;
  activities : gmap string Activity
}.

Definition set_activities (st : Store) (acts : gmap string Activity) : Store :=
  {| TEACHERS := TEACHERS st; activities := acts |}.

(** ** Requests and responses *)

Record Request : Type := mkRequest {
  cookies : gmap string string
}.

Inductive Exception : Type :=
| HTTPException (status_code : Z) (detail : string)
| AttributeError
| CookieError.

Inductive CookieOp : Type :=
| set_cookie (key value : string) (httponly : bool) (samesite : string)
| delete_cookie (key : string).

(** A starlette Response.  [content] is the value handed to json.dumps;
    [status] is 200 unless the constructor is told otherwise (it never is
    in app.py). *)
Record Response : Type := mkResponse {
  content : json;
  media_type : string;
  status : Z;
  cookie_ops : list CookieOp
}.

(** What a handler returns to the framework. *)
Inductive Returned : Type :=
| RNone
| RDict (body : json)
| RActivities (body : gmap string Activity)
| RResponse (r : Response)
| RRedirect (url : string).

Inductive outcome (A : Type) : Type :=
| Returns (a : A)
| Raises (e : Exception).
Arguments Returns {A} a.
Arguments Raises {A} e.

(** The status line the client sees: FastAPI answers 200 for a returned
    value, the exception's status_code for an HTTPException, and 500 for
    any other exception; RedirectResponse defaults to 307. *)
Definition http_status (o : outcome Returned) : Z :=
  match o with
  | Returns (RResponse r) => status r
  | Returns (RRedirect _) => 307
  | Returns _ => 200
  | Raises (HTTPException code _) => code
  | Raises AttributeError => 500
  | Raises CookieError => 500
  end.

(** ** The handler monad: state passing plus exceptions *)

Definition M (A : Type) : Type := Store -> outcome A * Store.

Definition ret {A} (a : A) : M A := fun st => (Returns a, st).

Definition raise {A} (e : Exception) : M A := fun st => (Raises e, st).

Definition bind {A B} (m : M A) (k : A -> M B) : M B :=
  fun st =>
    match m st with
    | (Returns a, st') => k a st'
    | (Raises e, st') => (Raises e, st')
    end.

Definition read {A} (proj : Store -> A) : M A := fun st => (Returns (proj st), st).

Definition write_activities (acts : gmap string Activity) : M unit :=
  fun st => (Returns tt, set_activities st acts).

Declare Scope handler_scope.
Delimit Scope handler_scope with handler.
Notation "x <- m ;; k" := (bind m (fun x => k))
  (at level 100, m at next level, right associativity) : handler_scope.
Notation "m ;;; k" := (bind m (fun _ => k))
  (at level 100, right associativity) : handler_scope.
Local Open Scope handler_scope.

(** ** The handlers of app.py *)

Definition session_user : string := "session_user".

(** def require_teacher(request) *)
Definition require_teacher (request : Request) : M string :=
  teachers <- read TEACHERS ;;
  match cookies request !! session_user with
  | Some user =>
      if negb (PyStr.truthy user) || negb (bool_decide (is_Some (teachers !! user)))
      then raise (HTTPException 401 "Teacher login required")
      else ret user
  | None => raise (HTTPException 401 "Teacher login required")
  end.

(** teacher: str = Depends(require_teacher): the framework runs the
    dependency before the handler body and hands it the result; an
    exception of the dependency is the answer of the request. *)
Definition Depends {A B} (dependency : Request -> M A) (handler : A -> M B)
    (request : Request) : M B :=
  x <- dependency request ;; handler x.

(** def root() *)
Definition root : M Returned := ret (RRedirect "/static/index.html").

(** def get_activities() *)
Definition get_activities : M Returned :=
  acts <- read activities ;; ret (RActivities acts).

(** def signup_for_activity(activity_name, email, teacher) *)
Definition signup_for_activity (activity_name email teacher : string) : M Returned :=
  acts <- read activities ;;
  match acts !! activity_name with
  | None => raise (HTTPException 404 "Activity not found")
  | Some activity =>
      if bool_decide (email ∈ participants activity)
      then raise (HTTPException 400 "Student is already signed up")
      else
        write_activities (<[activity_name := append_participant activity email]> acts) ;;;
        ret (RDict (JObj [("message",
               JStr ("Signed up " +:+ email +:+ " for " +:+ activity_name))]))
  end.

(** def unregister_from_activity(activity_name, email, teacher): in app.py
    the body of this function is its docstring alone, so it returns None.
    The statements that validate and remove the participant come after the
    last return of me() and are never executed. *)
Definition unregister_from_activity (activity_name email teacher : string) : M Returned :=
  ret RNone.

(** def login(request, credentials).  response.set_cookie stores the
    value in an http.cookies.SimpleCookie, and Morsel.set raises
    CookieError when the value holds a control character; the key and the
    other attributes set here are always accepted.  The exception is not
    caught: no response is returned and no cookie is set.  (A code point
    above 255, which set_cookie cannot encode either, is outside the
    strings of this model.) *)
Definition login (request : Request) (credentials : gmap string json) : M Returned :=
  match default (JStr "") (credentials !! "username") with
  | JStr raw =>
      let username := PyStr.strip raw in
      let password := default (JStr "") (credentials !! "password") in
      teachers <- read TEACHERS ;;
      match teachers !! username with
      | Some stored =>
          if str_eq_json stored password
          then
            let resp := JObj [("message", JStr "Login successful");
                              ("username", JStr username)] in
            if PyStr.has_control_character username
            then raise CookieError
            else
              ret (RResponse {| content := resp;
                                media_type := "application/json";
                                status := 200;
                                cookie_ops := [set_cookie session_user username true "lax"] |})
          else raise (HTTPException 401 "Invalid credentials")
      | None => raise (HTTPException 401 "Invalid credentials")
      end
  | _ => raise AttributeError
  end.

(** def logout() *)
Definition logout : M Returned :=
  ret (RResponse {| content := JObj [("message", JStr "Logged out")];
                    media_type := "application/json";
                    status := 200;
                    cookie_ops := [delete_cookie session_user] |}).

(** def me(request) *)
Definition me (request : Request) : M Returned :=
  teachers <- read TEACHERS ;;
  match cookies request !! session_user with
  | Some user =>
      if PyStr.truthy user && bool_decide (is_Some (teachers !! user))
      then ret (RDict (JObj [("authenticated", JBool true); ("username", JStr user)]))
      else ret (RDict (JObj [("authenticated", JBool false)]))
  | None => ret (RDict (JObj [("authenticated", JBool false)]))
  end.

(** ** The routes

    The decorators of app.py: signup and unregister take their [teacher]
    argument from Depends(require_teacher); the other handlers are called
    directly. *)

Definition POST_signup (activity_name email : string) : Request -> M Returned :=
  Depends require_teacher (signup_for_activity activity_name email).

Definition DELETE_unregister (activity_name email : string) : Request -> M Returned :=
  Depends require_teacher (unregister_from_activity activity_name email).

Inductive Call : Type :=
| GetRoot
| GetActivities
| PostSignup (activity_name email : string)
| DeleteUnregister (activity_name email : string)
| PostLogin (credentials : gmap string json)
| PostLogout
| GetMe.

Definition serve (request : Request) (c : Call) : M Returned :=
  match c with
  | GetRoot => root
  | GetActivities => get_activities
  | PostSignup activity_name email => POST_signup activity_name email request
  | DeleteUnregister activity_name email => DELETE_unregister activity_name email request
  | PostLogin credentials => login request credentials
  | PostLogout => logout
  | GetMe => me request
  end.

(** The store after a sequence of requests, served one after the other. *)
Fixpoint serve_all (calls : list (Request * Call)) (st : Store) : Store :=
  match calls with
  | [] => st
  | (request, c) :: rest => serve_all rest (snd (serve request c st))
  end.

(** The states the server can be in, starting from [st0]. *)
Inductive reachable (st0 : Store) : Store -> Prop :=
| reachable_start : reachable st0 st0
| reachable_serve st request c :
    reachable st0 st -> reachable st0 (snd (serve request c st)).

(** ** The client side of the cookie

    The cookies a client holds after it has received an answer: a
    Set-Cookie header stores the value, delete_cookie (an expired
    Set-Cookie) drops it, and an answer that carries no such header, as
    the one FastAPI builds for an exception, leaves them as they are. *)

Definition apply_cookie_op (jar : gmap string string) (op : CookieOp) : gmap string string :=
  match op with
  | set_cookie key value _ _ => <[key := value]> jar
  | delete_cookie key => delete key jar
  end.

Definition client_cookies (jar : gmap string string) (o : outcome Returned) : gmap string string :=
  match o with
  | Returns (RResponse r) => foldl apply_cookie_op jar (cookie_ops r)
  | _ => jar
  end.

(** ** The data of app.py *)

(** activities = { ... } *)
Definition initial_activities : gmap string Activity :=
  list_to_map [
    ("Chess Club",
     mkActivity "Learn strategies and compete in chess tournaments"
       "Fridays, 3:30 PM - 5:00 PM" 12
       ["michael@mergington.edu"; "daniel@mergington.edu"]);
    ("Programming Class",
     mkActivity "Learn programming fundamentals and build software projects"
       "Tuesdays and Thursdays, 3:30 PM - 4:30 PM" 20
       ["emma@mergington.edu"; "sophia@mergington.edu"]);
    ("Gym Class",
     mkActivity "Physical education and sports activities"
       "Mondays, Wednesdays, Fridays, 2:00 PM - 3:00 PM" 30
       ["john@mergington.edu"; "olivia@mergington.edu"]);
    ("Soccer Team",
     mkActivity "Join the school soccer team and compete in matches"
       "Tuesdays and Thursdays, 4:00 PM - 5:30 PM" 22
       ["liam@mergington.edu"; "noah@mergington.edu"]);
    ("Basketball Team",
     mkActivity "Practice and play basketball with the school team"
       "Wednesdays and Fridays, 3:30 PM - 5:00 PM" 15
       ["ava@mergington.edu"; "mia@mergington.edu"]);
    ("Art Club",
     mkActivity "Explore your creativity through painting and drawing"
       "Thursdays, 3:30 PM - 5:00 PM" 15
       ["amelia@mergington.edu"; "harper@mergington.edu"]);
    ("Drama Club",
     mkActivity "Act, direct, and produce plays and performances"
       "Mondays and Wednesdays, 4:00 PM - 5:30 PM" 20
       ["ella@mergington.edu"; "scarlett@mergington.edu"]);
    ("Math Club",
     mkActivity "Solve challenging problems and participate in math competitions"
       "Tuesdays, 3:30 PM - 4:30 PM" 10
       ["james@mergington.edu"; "benjamin@mergington.edu"]);
    ("Debate Team",
     mkActivity "Develop public speaking and argumentation skills"
       "Fridays, 4:00 PM - 5:30 PM" 12
       ["charlotte@mergington.edu"; "henry@mergington.edu"])
  ].

(** The store right after import, for a given content of teachers.json.
    That file is read once, into TEACHERS, and is not part of the
    sources: the theorems hold for every dictionary from user names to
    passwords. *)
Definition startup (teachers : gmap string string) : Store :=
  {| TEACHERS := teachers; activities := initial_activities |}.

(** The directory of the specification's scenario: one teacher, anna. *)
Definition scenario_store : Store := startup {[ "anna" := "pw1" ]}.

Definition with_session (user : string) : Request :=
  {| cookies := {[ session_user := user ]} |}.

Definition anonymous : Request := {| cookies := ∅ |}.

(** The scenario continued until the Math Club, whose max_participants is
    10, has ten participants: anna signs up eight more students. *)
Definition math_club_full : Store :=
  serve_all
    (map (fun email => (with_session "anna", PostSignup "Math Club" email))
       ["s1@mergington.edu"; "s2@mergington.edu"; "s3@mergington.edu";
        "s4@mergington.edu"; "s5@mergington.edu"; "s6@mergington.edu";
        "s7@mergington.edu"; "s8@mergington.edu"])
    scenario_store.

(** The JSON body {"username": u, "password": p}. *)
Definition login_body (u p : string) : gmap string json :=
  <["username" := JStr u]> (<["password" := JStr p]> ∅).

(** ** Vocabulary of the statements *)

(** The request carries a session cookie that the guard accepts as [u]. *)
Definition authorized (st : Store) (request : Request) (u : string) : Prop :=
  cookies request !! session_user = Some u /\ u <> "" /\ is_Some (TEACHERS st !! u).

(** No email occurs twice in the participants of an activity. *)
Definition participants_unique (st : Store) : Prop :=
  map_Forall (fun _ a => NoDup (participants a)) (activities st).

Definition Unauthorized : Exception := HTTPException 401 "Teacher login required".
Definition NotFound : Exception := HTTPException 404 "Activity not found".
Definition Conflict : Exception := HTTPException 400 "Student is already signed up".
Definition BadCredentials : Exception := HTTPException 401 "Invalid credentials".

Definition signed_up (email activity_name : string) : Returned :=
  RDict (JObj [("message", JStr ("Signed up " +:+ email +:+ " for " +:+ activity_name))]).

Definition logged_in (username : string) : Returned :=
  RResponse {| content := JObj [("message", JStr "Login successful");
                                ("username", JStr username)];
               media_type := "application/json";
               status := 200;
               cookie_ops := [set_cookie session_user username true "lax"] |}.

(** The two bodies me() can return. *)
Definition identity_report (who : option string) : Returned :=
  match who with
  | Some user => RDict (JObj [("authenticated", JBool true); ("username", JStr user)])
  | None => RDict (JObj [("authenticated", JBool false)])
  end.

(** The guard's verdict, as an optional principal. *)
Definition principal (o : outcome string) : option string :=
  match o with
  | Returns user => Some user
  | Raises _ => None
  end.


(** [a] is [a0] with, possibly, more participants at the end. *)
Definition grown_from (a0 a : Activity) : Prop :=
  description a = description a0
  /\ schedule a = schedule a0
  /\ max_participants a = max_participants a0
  /\ participants a0 `prefix_of` participants a.

(** Signing up each of [emails] in turn for [activity_name], with the
    cookies of [request]. *)
Definition signups (request : Request) (activity_name : string)
    (emails : list string) : list (Request * Call) :=
  map (fun email => (request, PostSignup activity_name email)) emails.

(** A list of characters that is empty or begins with a character that
    is no white space. *)
Definition starts_clean (x : list ascii) : Prop :=
  forall c y, x = c :: y -> PyStr.isspace c = false.

(** [s] neither begins nor ends with white space. *)
Definition trimmed (s : string) : Prop :=
  forall c rest,
    (s = String c rest -> PyStr.isspace c = false)
    /\ (s = rest +:+ String c "" -> PyStr.isspace c = false).

(** A JSON value that is not a string. *)
Definition not_a_str (v : json) : Prop :=
  match v with
  | JStr _ => False
  | _ => True
  end.

(** ** Start-up: loading teachers.json (app.py, lines 33-39)

    The try block opens the file, parses it with json.load and builds
    TEACHERS with a dict comprehension; only FileNotFoundError is caught.
    Any other exception escapes the module, and the application does not
    start. *)

Module Startup.

(** The state of teachers.json when the module is imported. *)
Inductive TeachersFile : Type :=
| Missing                (* open() raises FileNotFoundError *)
| Malformed              (* the content is not JSON: json.load raises *)
| Parsed (data : json).  (* what json.load returns *)

Inductive ImportError : Type :=
| JSONDecodeError
| AttributeError
| KeyError
| TypeError.

(** The result of the try statement.  [Unrepresented] stands for a
    directory that Python builds but [Store] cannot hold: a user name that
    is a number, a boolean or null, or a password that is not a str. *)
Inductive Loaded : Type :=
| Directory (teachers : gmap string string)
| Crashes (e : ImportError)
| Unrepresented.

(** d[key] and d.get(key) on the dict json.load makes of a JSON object:
    when a name occurs twice in the object, the last value is kept. *)
Fixpoint obj_get (fields : list (string * json)) (key : string) : option json :=
  match fields with
  | [] => None
  | (k, v) :: rest =>
      match obj_get rest key with
      | Some v' => Some v'
      | None => if String.eqb k key then Some v else None
      end
  end.

(** One round of the comprehension: t["username"]: t["password"] is
    evaluated and stored under its key.  Subscripting anything but a dict
    with a str is a TypeError, a missing key a KeyError, and a list or a
    dict cannot be a key (TypeError: unhashable). *)
Definition add_teacher (acc : gmap string string) (t : json) : Loaded :=
  match t with
  | JObj fields =>
      match obj_get fields "username", obj_get fields "password" with
      | Some (JStr username), Some (JStr password) =>
          Directory (<[username := password]> acc)
      | Some (JList _), Some _ | Some (JObj _), Some _ => Crashes TypeError
      | Some _, Some _ => Unrepresented
      | _, _ => Crashes KeyError
      end
  | _ => Crashes TypeError
  end.

(** {t["username"]: t["password"] for t in ts}, from the first element
    on; a later element with the same user name overwrites the earlier
    one.  The first element that raises ends the comprehension with its
    exception, also when an element before it was stored with a value
    that [Store] cannot hold; only when no element raises and such a
    value was stored is the result [Unrepresented]. *)
Fixpoint comprehension (ts : list json) (acc : gmap string string) : Loaded :=
  match ts with
  | [] => Directory acc
  | t :: rest =>
      match add_teacher acc t with
      | Directory acc' => comprehension rest acc'
      | Crashes e => Crashes e
      | Unrepresented =>
          match comprehension rest acc with
          | Crashes e => Crashes e
          | _ => Unrepresented
          end
      end
  end.

(** The try statement as a whole.  _teacher_data.get exists only on a
    dict (AttributeError otherwise); "teachers" defaults to the empty
    list.  Iterating a str or a dict yields strs, which cannot be
    subscripted by "username": the comprehension then raises TypeError at
    its first element, unless there is none; a number, a boolean or null
    cannot be iterated at all. *)
Definition load_TEACHERS (file : TeachersFile) : Loaded :=
  match file with
  | Missing => Directory ∅
  | Malformed => Crashes JSONDecodeError
  | Parsed (JObj fields) =>
      match default (JList []) (obj_get fields "teachers") with
      | JList ts => comprehension ts ∅
      | JStr "" | JObj [] => Directory ∅
      | _ => Crashes TypeError
      end
  | Parsed _ => Crashes AttributeError
  end.

(** A JSON object that holds the user name [u] and the password [p], both
    strs, possibly among other fields. *)
Definition teacher_entry (t : json) (u p : string) : Prop :=
  exists fields,
    t = JObj fields
    /\ obj_get fields "username" = Some (JStr u)
    /\ obj_get fields "password" = Some (JStr p).


End Startup.

(** ** Tactics for concrete stores *)

(** Evaluating a decidable fact of a concrete store. *)
Ltac evaluate_decidable :=
  let H := fresh in
  match goal with
  | |- ¬ ?P =>
      assert (H : bool_decide P = false) by (vm_compute; reflexivity);
      exact (bool_decide_eq_false_1 P H)
  | |- ?P =>
      assert (H : bool_decide P = true) by (vm_compute; reflexivity);
      exact (bool_decide_eq_true_1 P H)
  end.

Ltac evaluate_authorized :=
  unfold authorized;
  split; [ vm_compute; reflexivity
         | split; [ discriminate | eexists; vm_compute; reflexivity ] ].

(** ** Facts about strip *)

Section strip_facts.
Import PyStr.

Let ws (c : ascii) : Prop := isspace c = true.

Lemma list_ascii_of_append (s1 s2 : string) :
  list_ascii_of_string (s1 +:+ s2)
  = list_ascii_of_string s1 ++ list_ascii_of_string s2.
Proof. induction s1 as [|c s1 IH]; simpl; [reflexivity | now rewrite IH]. Qed.

Lemma lstrip_blank_prefix (l x : list ascii) :
  Forall ws l -> lstrip_chars (l ++ x) = lstrip_chars x.
Proof.
  induction 1 as [|c l Hc _ IH]; simpl; [reflexivity|].
  unfold ws in Hc. now rewrite Hc.
Qed.

Lemma lstrip_blank (l : list ascii) : Forall ws l -> lstrip_chars l = [].
Proof.
  intros H. rewrite <- (app_nil_r l). now rewrite lstrip_blank_prefix.
Qed.

Lemma lstrip_nil_blank (x : list ascii) : lstrip_chars x = [] -> Forall ws x.
Proof.
  induction x as [|c x IH]; simpl; [constructor|].
  destruct (isspace c) eqn:Hc; [|discriminate].
  intros H. constructor; [exact Hc | now apply IH].
Qed.

Lemma lstrip_app_nonblank (x r : list ascii) :
  lstrip_chars x <> [] -> lstrip_chars (x ++ r) = lstrip_chars x ++ r.
Proof.
  induction x as [|c x IH]; simpl; [congruence|].
  destruct (isspace c); [exact IH | reflexivity].
Qed.

Lemma rstrip_blank_suffix (y r : list ascii) :
  Forall ws r -> rstrip_chars (y ++ r) = rstrip_chars y.
Proof.
  intros Hr. unfold rstrip_chars. rewrite rev_app_distr.
  rewrite lstrip_blank_prefix; [reflexivity|].
  apply Forall_rev. exact Hr.
Qed.

Lemma strip_chars_surrounded (l x r : list ascii) :
  Forall ws l -> Forall ws r ->
  rstrip_chars (lstrip_chars (l ++ x ++ r)) = rstrip_chars (lstrip_chars x).
Proof.
  intros Hl Hr. rewrite lstrip_blank_prefix by exact Hl.
  destruct (lstrip_chars x) as [|c y] eqn:Hx.
  - apply lstrip_nil_blank in Hx.
    rewrite lstrip_blank; [reflexivity|].
    apply Forall_app; split; assumption.
  - rewrite lstrip_app_nonblank by (rewrite Hx; discriminate).
    rewrite Hx. now apply rstrip_blank_suffix.
Qed.

(** White space around a string does not change what strip returns. *)
Lemma strip_surrounded (l s r : string) :
  blank l -> blank r -> strip (l +:+ s +:+ r) = strip s.
Proof.
  intros Hl Hr. unfold strip.
  rewrite !list_ascii_of_append.
  now rewrite strip_chars_surrounded.
Qed.

End strip_facts.

(** ** The session guard *)

Lemma truthy_nonempty (s : string) : PyStr.truthy s = true <-> s <> "".
Proof.
  unfold PyStr.truthy. rewrite negb_true_iff.
  destruct (String.eqb_spec s ""); split; congruence.
Qed.

Lemma require_teacher_accepts st request u :
  authorized st request u -> require_teacher request st = (Returns u, st).
Proof.
  intros (Hc & Hne & Hin). unfold require_teacher, bind, read. simpl.
  rewrite Hc. apply truthy_nonempty in Hne. rewrite Hne.
  now rewrite bool_decide_true.
Qed.

Lemma require_teacher_rejects st request :
  (forall u, ~ authorized st request u) ->
  require_teacher request st = (Raises Unauthorized, st).
Proof.
  intros Hno. unfold require_teacher, bind, read. simpl.
  destruct (cookies request !! session_user) as [u|] eqn:Hc; [|reflexivity].
  destruct (PyStr.truthy u) eqn:Ht; [|reflexivity]. simpl.
  case_bool_decide as Hin; [|reflexivity].
  exfalso. apply (Hno u). apply truthy_nonempty in Ht. now repeat split.
Qed.

(** The guard only reads the store. *)
Lemma require_teacher_store st request : snd (require_teacher request st) = st.
Proof.
  unfold require_teacher, bind, read. simpl.
  destruct (cookies request !! session_user) as [u|]; [|reflexivity].
  now destruct (_ || _).
Qed.

Lemma guarded_accepts {B} (handler : string -> M B) st request u :
  authorized st request u ->
  Depends require_teacher handler request st = handler u st.
Proof.
  intros H. unfold Depends, bind. now rewrite (require_teacher_accepts _ _ _ H).
Qed.

Lemma guarded_rejects {B} (handler : string -> M B) st request :
  (forall u, ~ authorized st request u) ->
  Depends require_teacher handler request st = (Raises Unauthorized, st).
Proof.
  intros H. unfold Depends, bind. now rewrite (require_teacher_rejects _ _ H).
Qed.

(** A request is either accepted by the guard or not. *)
Lemma authorized_dec st request :
  (exists u, authorized st request u) \/ (forall u, ~ authorized st request u).
Proof.
  unfold authorized.
  destruct (cookies request !! session_user) as [u|] eqn:Hc.
  - destruct (decide (u = "")) as [->|Hne].
    + right. intros u' (Hu & Hne' & _). congruence.
    + destruct (TEACHERS st !! u) as [p|] eqn:Ht.
      * left. exists u. rewrite Ht. eauto.
      * right. intros u' (Hu & _ & Hin). injection Hu as <-.
        rewrite Ht in Hin. now destruct Hin.
  - right. intros u' (Hu & _). discriminate.
Qed.

(** ** The body of signup_for_activity, case by case *)

Lemma signup_for_activity_unknown st activity_name email teacher :
  activities st !! activity_name = None ->
  signup_for_activity activity_name email teacher st = (Raises NotFound, st).
Proof.
  intros H. unfold signup_for_activity, bind, read. simpl. now rewrite H.
Qed.

Lemma signup_for_activity_conflict st activity_name a email teacher :
  activities st !! activity_name = Some a ->
  email ∈ participants a ->
  signup_for_activity activity_name email teacher st = (Raises Conflict, st).
Proof.
  intros H Hin. unfold signup_for_activity, bind, read. simpl. rewrite H.
  now rewrite bool_decide_true.
Qed.

Lemma signup_for_activity_fresh st activity_name a email teacher :
  activities st !! activity_name = Some a ->
  email ∉ participants a ->
  signup_for_activity activity_name email teacher st
  = (Returns (signed_up email activity_name),
     set_activities st (<[activity_name := append_participant a email]> (activities st))).
Proof.
  intros H Hin. unfold signup_for_activity, bind, read. simpl. rewrite H.
  now rewrite bool_decide_false.
Qed.

(** ** Sign up *)

(** C2. For a known activity and a request the guard accepts: signing up
    an email that is not yet a participant answers with the confirmation
    message, appends the email at the end of the participants (where it
    then occurs exactly once) and touches nothing else, and the same
    signup repeated on the new store raises Conflict (400); signing up an
    email that is already a participant raises Conflict (400). *)
Theorem signup_adds_once_then_conflicts st request u activity_name a email :
  authorized st request u ->
  activities st !! activity_name = Some a ->
  (email ∉ participants a ->
   exists st',
     POST_signup activity_name email request st
       = (Returns (signed_up email activity_name), st')
     /\ TEACHERS st' = TEACHERS st
     /\ activities st'
        = <[activity_name := append_participant a email]> (activities st)
     /\ (exists a', activities st' !! activity_name = Some a'
                    /\ participants a' = participants a ++ [email]
                    /\ count_occ string_dec (participants a') email = 1%nat)
     /\ POST_signup activity_name email request st' = (Raises Conflict, st'))
  /\ (email ∈ participants a ->
      POST_signup activity_name email request st = (Raises Conflict, st)
      /\ http_status (Raises Conflict) = 400).
Proof.
  intros Hauth Hknown. split.
  - intros Hfresh.
    set (a' := append_participant a email).
    set (st' := set_activities st (<[activity_name := a']> (activities st))).
    assert (Hlook : activities st' !! activity_name = Some a')
      by apply lookup_insert_eq.
    assert (Hauth' : authorized st' request u) by exact Hauth.
    exists st'. split; [|split; [|split; [|split]]].
    + unfold POST_signup. rewrite (guarded_accepts _ _ _ _ Hauth).
      now apply signup_for_activity_fresh.
    + reflexivity.
    + reflexivity.
    + exists a'. split; [exact Hlook|]. split; [reflexivity|].
      simpl. rewrite count_occ_app. simpl.
      destruct (string_dec email email) as [_|Hne]; [|congruence].
      assert (Hz : count_occ string_dec (participants a) email = 0%nat).
      { apply count_occ_not_In. intros Hin. apply Hfresh.
        now apply list_elem_of_In. }
      rewrite Hz. reflexivity.
    + unfold POST_signup. rewrite (guarded_accepts _ _ _ _ Hauth').
      apply (signup_for_activity_conflict _ _ a'); [exact Hlook|].
      simpl. apply elem_of_app. right. now apply list_elem_of_singleton.
  - intros Hin. split; [|reflexivity].
    unfold POST_signup. rewrite (guarded_accepts _ _ _ _ Hauth).
    now apply (signup_for_activity_conflict _ _ a).
Qed.

(** The scenario of the specification: anna signs up new@mergington.edu
    for the Chess Club, and daniel, who is in it already. *)
Lemma signup_adds_once_then_conflicts_witness :
  (exists st',
     POST_signup "Chess Club" "new@mergington.edu" (with_session "anna") scenario_store
       = (Returns (signed_up "new@mergington.edu" "Chess Club"), st')
     /\ POST_signup "Chess Club" "new@mergington.edu" (with_session "anna") st'
        = (Raises Conflict, st'))
  /\ POST_signup "Chess Club" "daniel@mergington.edu" (with_session "anna") scenario_store
     = (Raises Conflict, scenario_store).
Proof.
  pose (chess := mkActivity "Learn strategies and compete in chess tournaments"
                   "Fridays, 3:30 PM - 5:00 PM" 12
                   ["michael@mergington.edu"; "daniel@mergington.edu"]).
  assert (Hauth : authorized scenario_store (with_session "anna") "anna")
    by evaluate_authorized.
  assert (Hknown : activities scenario_store !! "Chess Club" = Some chess)
    by (vm_compute; reflexivity).
  split.
  - destruct (signup_adds_once_then_conflicts scenario_store (with_session "anna")
                "anna" "Chess Club" chess "new@mergington.edu" Hauth Hknown)
      as [Hnew _].
    destruct Hnew as (st' & H1 & _ & _ & _ & H2).
    + evaluate_decidable.
    + exists st'. split; assumption.
  - destruct (signup_adds_once_then_conflicts scenario_store (with_session "anna")
                "anna" "Chess Club" chess "daniel@mergington.edu" Hauth Hknown)
      as [_ Hold].
    apply Hold. evaluate_decidable.
Defined.

(** C7. max_participants is never consulted: for a known activity whose
    participants already number max_participants or more, a request the
    guard accepts still signs up an email that is not yet a participant;
    the email is appended and the confirmation returned. *)
Theorem signup_ignores_capacity st request u activity_name a email :
  authorized st request u ->
  activities st !! activity_name = Some a ->
  email ∉ participants a ->
  max_participants a <= Z.of_nat (length (participants a)) ->
  POST_signup activity_name email request st
  = (Returns (signed_up email activity_name),
     set_activities st (<[activity_name := append_participant a email]> (activities st)))
  /\ participants (append_participant a email) = participants a ++ [email]
  /\ max_participants (append_participant a email)
     < Z.of_nat (length (participants (append_participant a email))).
Proof.
  intros Hauth Hknown Hfresh Hfull. split; [|split].
  - unfold POST_signup. rewrite (guarded_accepts _ _ _ _ Hauth).
    now apply signup_for_activity_fresh.
  - reflexivity.
  - simpl. rewrite length_app. simpl. lia.
Qed.

(** The Math Club (max_participants 10) after eight more signups has ten
    participants; the eleventh signup is accepted all the same. *)
Lemma signup_ignores_capacity_witness :
  exists a,
    activities math_club_full !! "Math Club" = Some a
    /\ max_participants a = 10
    /\ length (participants a) = 10%nat
    /\ POST_signup "Math Club" "late@mergington.edu" (with_session "anna") math_club_full
       = (Returns (signed_up "late@mergington.edu" "Math Club"),
          set_activities math_club_full
            (<["Math Club" := append_participant a "late@mergington.edu"]>
               (activities math_club_full)))
    /\ length (participants (append_participant a "late@mergington.edu")) = 11%nat.
Proof.
  eexists. split; [vm_compute; reflexivity|].
  split; [reflexivity|]. split; [reflexivity|].
  split; [|reflexivity].
  apply (signup_ignores_capacity math_club_full (with_session "anna") "anna").
  - evaluate_authorized.
  - vm_compute; reflexivity.
  - evaluate_decidable.
  - simpl. lia.
Defined.

(** ** Unknown activities *)

(** C3, as stated, fails: a signup for an activity that does not exist,
    sent without a session cookie, is answered 401 and not 404, because
    the guard runs before the handler looks at the activity name. *)
Lemma signup_unknown_activity_anonymous_is_401 :
  activities scenario_store !! "Knitting" = None
  /\ POST_signup "Knitting" "new@mergington.edu" anonymous scenario_store
     = (Raises Unauthorized, scenario_store)
  /\ http_status (fst (POST_signup "Knitting" "new@mergington.edu" anonymous scenario_store))
     <> 404.
Proof.
  split; [vm_compute; reflexivity|].
  split; [vm_compute; reflexivity|].
  vm_compute. discriminate.
Qed.

(** C3, amended. For an activity name that is not in the registry and any
    email: a signup request the guard accepts raises NotFound (404); a
    signup or unregister request the guard does not accept raises
    Unauthorized (401) instead; the store is unchanged in both cases. *)
Theorem signup_unknown_activity st request activity_name email :
  activities st !! activity_name = None ->
  (forall u, authorized st request u ->
     POST_signup activity_name email request st = (Raises NotFound, st)
     /\ http_status (Raises NotFound) = 404)
  /\ ((forall u, ~ authorized st request u) ->
      POST_signup activity_name email request st = (Raises Unauthorized, st)
      /\ DELETE_unregister activity_name email request st = (Raises Unauthorized, st)
      /\ http_status (Raises Unauthorized) = 401).
Proof.
  intros Hunknown. split.
  - intros u Hauth. split; [|reflexivity].
    unfold POST_signup. rewrite (guarded_accepts _ _ _ _ Hauth).
    now apply signup_for_activity_unknown.
  - intros Hno. split; [|split; [|reflexivity]].
    + now apply guarded_rejects.
    + now apply guarded_rejects.
Qed.

Lemma signup_unknown_activity_witness :
  POST_signup "Knitting" "new@mergington.edu" (with_session "anna") scenario_store
  = (Raises NotFound, scenario_store)
  /\ POST_signup "Knitting" "new@mergington.edu" (with_session "zoe") scenario_store
     = (Raises Unauthorized, scenario_store).
Proof.
  assert (Hunknown : activities scenario_store !! "Knitting" = None)
    by (vm_compute; reflexivity).
  split.
  - apply (signup_unknown_activity scenario_store (with_session "anna")
             "Knitting" "new@mergington.edu" Hunknown) with (u := "anna").
    evaluate_authorized.
  - apply (signup_unknown_activity scenario_store (with_session "zoe")
             "Knitting" "new@mergington.edu" Hunknown).
    intros u (Hc & _ & Hin).
    vm_compute in Hc. injection Hc as <-.
    vm_compute in Hin. destruct Hin as [p Hp]. discriminate.
Defined.

(** ** Errors leave the store alone *)

(** C9. Whenever signup or unregister raises, the store after the call is
    the store before it (all activities with their participants and
    metadata, and the teacher directory); the exception is one of
    Unauthorized, NotFound and Conflict. *)
Theorem errors_leave_store_unchanged st request activity_name email e st' :
  POST_signup activity_name email request st = (Raises e, st')
  \/ DELETE_unregister activity_name email request st = (Raises e, st') ->
  st' = st /\ (e = Unauthorized \/ e = NotFound \/ e = Conflict).
Proof.
  intros H.
  destruct (authorized_dec st request) as [[u Hauth]|Hno].
  - unfold POST_signup, DELETE_unregister in H.
    rewrite !(guarded_accepts _ _ _ _ Hauth) in H.
    destruct H as [H|H]; [|discriminate H].
    destruct (activities st !! activity_name) as [a|] eqn:Hknown.
    + destruct (decide (email ∈ participants a)) as [Hin|Hfresh].
      * rewrite (signup_for_activity_conflict _ _ _ _ _ Hknown Hin) in H.
        injection H as <- <-. auto.
      * rewrite (signup_for_activity_fresh _ _ _ _ _ Hknown Hfresh) in H.
        discriminate H.
    + rewrite (signup_for_activity_unknown _ _ _ _ Hknown) in H.
      injection H as <- <-. auto.
  - unfold POST_signup, DELETE_unregister in H.
    rewrite !(guarded_rejects _ _ _ Hno) in H.
    destruct H as [H|H]; injection H as <- <-; auto.
Qed.

Lemma errors_leave_store_unchanged_witness :
  snd (POST_signup "Chess Club" "daniel@mergington.edu" (with_session "anna") scenario_store)
  = scenario_store.
Proof.
  apply (errors_leave_store_unchanged scenario_store (with_session "anna")
           "Chess Club" "daniel@mergington.edu" Conflict).
  left. vm_compute. reflexivity.
Defined.

(** ** The session guard, as the specification words it *)

(** C5, as stated, fails: an empty session_user cookie is rejected even
    when the empty string is a user name of the directory. *)
Lemma empty_session_cookie_is_rejected :
  cookies (with_session "") !! session_user = Some ""
  /\ TEACHERS (startup {[ "" := "pw" ]}) !! "" = Some "pw"
  /\ require_teacher (with_session "") (startup {[ "" := "pw" ]})
     = (Raises Unauthorized, startup {[ "" := "pw" ]}).
Proof. repeat split; vm_compute; reflexivity. Qed.

(** C5, amended. If the session_user cookie is absent, empty, or not a
    user name of the teacher directory, the guard raises Unauthorized
    (401), and so does every signup and unregister request; otherwise the
    guard returns the cookie's value.  The store is never changed. *)
Theorem require_teacher_guard st request :
  (cookies request !! session_user = None
   \/ cookies request !! session_user = Some ""
   \/ (exists user, cookies request !! session_user = Some user
                    /\ TEACHERS st !! user = None) ->
   require_teacher request st = (Raises Unauthorized, st)
   /\ http_status (Raises Unauthorized) = 401
   /\ forall activity_name email,
        POST_signup activity_name email request st = (Raises Unauthorized, st)
        /\ DELETE_unregister activity_name email request st
           = (Raises Unauthorized, st))
  /\ (forall user,
        cookies request !! session_user = Some user ->
        user <> "" ->
        is_Some (TEACHERS st !! user) ->
        require_teacher request st = (Returns user, st)).
Proof.
  split.
  - intros H.
    assert (Hno : forall u, ~ authorized st request u).
    { intros u (Hc & Hne & Hin).
      destruct H as [H|[H|(user & H & Hnone)]]; rewrite H in Hc;
        try discriminate; injection Hc as <-; [congruence|].
      rewrite Hnone in Hin. now destruct Hin. }
    split; [now apply require_teacher_rejects|].
    split; [reflexivity|].
    intros activity_name email. split; now apply guarded_rejects.
  - intros user Hc Hne Hin. apply require_teacher_accepts. now repeat split.
Qed.

Lemma require_teacher_guard_witness :
  require_teacher anonymous scenario_store = (Raises Unauthorized, scenario_store)
  /\ require_teacher (with_session "zoe") scenario_store
     = (Raises Unauthorized, scenario_store)
  /\ require_teacher (with_session "anna") scenario_store
     = (Returns "anna", scenario_store).
Proof.
  split; [|split].
  - apply (require_teacher_guard scenario_store anonymous).
    left. vm_compute. reflexivity.
  - apply (require_teacher_guard scenario_store (with_session "zoe")).
    right. right. exists "zoe". split; vm_compute; reflexivity.
  - apply (require_teacher_guard scenario_store (with_session "anna")).
    + vm_compute. reflexivity.
    + discriminate.
    + eexists. vm_compute. reflexivity.
Defined.

(** ** Unregister *)

(** With a request the guard accepts, unregister returns None and leaves
    the store as it is, whatever the activity and the email. *)
Lemma unregister_is_noop st request u activity_name email :
  authorized st request u ->
  DELETE_unregister activity_name email request st = (Returns RNone, st).
Proof.
  intros Hauth. unfold DELETE_unregister.
  now rewrite (guarded_accepts _ _ _ _ Hauth).
Qed.

(** C1 on the code: anna unregisters michael, a participant of the Chess
    Club.  The call answers 200 with None, michael is still a participant
    afterwards, and unregistering an email that is no participant answers
    200 with None as well, not Conflict. *)
Theorem unregister_keeps_registered_email :
  (exists a, activities scenario_store !! "Chess Club" = Some a
             /\ "michael@mergington.edu" ∈ participants a
             /\ "nobody@mergington.edu" ∉ participants a)
  /\ DELETE_unregister "Chess Club" "michael@mergington.edu"
       (with_session "anna") scenario_store
     = (Returns RNone, scenario_store)
  /\ DELETE_unregister "Chess Club" "nobody@mergington.edu"
       (with_session "anna") scenario_store
     = (Returns RNone, scenario_store)
  /\ http_status (Returns RNone) = 200.
Proof.
  split; [|split; [|split]].
  - eexists. split; [vm_compute; reflexivity|].
    split; evaluate_decidable.
  - apply (unregister_is_noop _ _ "anna"). evaluate_authorized.
  - apply (unregister_is_noop _ _ "anna"). evaluate_authorized.
  - reflexivity.
Qed.

(** ** Logout *)

(** C8. Whatever the request and the store, logout returns a response
    with status 200 that deletes the session_user cookie, so a client
    holds no such cookie afterwards; it raises nothing and leaves the
    activity registry and the teacher directory as they are. *)
Theorem logout_always_succeeds st request jar :
  exists r,
    serve request PostLogout st = (Returns (RResponse r), st)
    /\ http_status (fst (serve request PostLogout st)) = 200
    /\ cookie_ops r = [delete_cookie session_user]
    /\ client_cookies jar (fst (serve request PostLogout st)) !! session_user = None.
Proof.
  eexists. split; [reflexivity|]. split; [reflexivity|]. split; [reflexivity|].
  simpl. apply lookup_delete_eq.
Qed.

(** ** What a request can do to the store *)

Lemma login_store st request credentials :
  snd (login request credentials st) = st.
Proof.
  unfold login.
  destruct (default (JStr "") (credentials !! "username")); try reflexivity.
  unfold bind, read. simpl.
  destruct (TEACHERS st !! PyStr.strip s); [|reflexivity].
  destruct (str_eq_json _ _); [|reflexivity].
  now destruct (PyStr.has_control_character _).
Qed.

Lemma me_store st request : snd (me request st) = st.
Proof.
  unfold me, bind, read. simpl.
  destruct (cookies request !! session_user); [|reflexivity].
  now destruct (_ && _).
Qed.

(** A request either leaves the store as it is, or it is a signup that
    appends a new email to the participants of one activity. *)
Lemma serve_store st request c :
  snd (serve request c st) = st
  \/ exists activity_name a email,
       activities st !! activity_name = Some a
       /\ (email ∉ participants a)
       /\ snd (serve request c st)
          = set_activities st
              (<[activity_name := append_participant a email]> (activities st)).
Proof.
  destruct c as [| |activity_name email|activity_name email|credentials| |]; simpl.
  - now left.
  - now left.
  - destruct (authorized_dec st request) as [[u Hauth]|Hno].
    + unfold POST_signup. rewrite (guarded_accepts _ _ _ _ Hauth).
      destruct (activities st !! activity_name) as [a|] eqn:Hknown.
      * destruct (decide (email ∈ participants a)) as [Hin|Hfresh].
        -- left. now rewrite (signup_for_activity_conflict _ _ _ _ _ Hknown Hin).
        -- right. exists activity_name, a, email.
           now rewrite (signup_for_activity_fresh _ _ _ _ _ Hknown Hfresh).
      * left. now rewrite (signup_for_activity_unknown _ _ _ _ Hknown).
    + left. unfold POST_signup. now rewrite (guarded_rejects _ _ _ Hno).
  - left. destruct (authorized_dec st request) as [[u Hauth]|Hno].
    + now rewrite (unregister_is_noop _ _ _ _ _ Hauth).
    + unfold DELETE_unregister. now rewrite (guarded_rejects _ _ _ Hno).
  - left. apply login_store.
  - now left.
  - left. apply me_store.
Qed.

(** No request changes the teacher directory. *)
Lemma serve_TEACHERS st request c :
  TEACHERS (snd (serve request c st)) = TEACHERS st.
Proof.
  destruct (serve_store st request c) as [->|(n & a & e & _ & _ & ->)];
    reflexivity.
Qed.

Lemma serve_all_reachable calls st : reachable st (serve_all calls st).
Proof.
  assert (H : forall st', reachable st st' -> reachable st (serve_all calls st')).
  { induction calls as [|[request c] rest IH]; intros st' Hst'; simpl.
    - exact Hst'.
    - apply IH. now constructor. }
  apply H. constructor.
Qed.

(** ** The invariant *)

Lemma append_participant_unique a email :
  NoDup (participants a) ->
  email ∉ participants a ->
  NoDup (participants (append_participant a email)).
Proof.
  intros Hnd Hfresh. simpl. apply NoDup_app. split; [exact Hnd|].
  split; [|apply NoDup_singleton].
  intros x Hx Hx'. apply list_elem_of_singleton in Hx'. now subst x.
Qed.

Lemma serve_preserves_unique st request c :
  participants_unique st -> participants_unique (snd (serve request c st)).
Proof.
  intros Hst.
  destruct (serve_store st request c)
    as [->|(activity_name & a & email & Hknown & Hfresh & ->)]; [exact Hst|].
  unfold participants_unique in *. simpl.
  apply map_Forall_insert_2; [|exact Hst].
  apply append_participant_unique; [|exact Hfresh].
  exact (Hst _ _ Hknown).
Qed.

(** The registry app.py starts with satisfies the invariant. *)
Lemma initial_activities_unique teachers : participants_unique (startup teachers).
Proof. unfold participants_unique, startup. simpl. evaluate_decidable. Qed.

(** C6. If no email occurs twice in a participants list of the initial
    registry, then the same holds in every state the server reaches from
    it, whatever requests (signup, unregister, login, logout, reads) it
    serves on the way. *)
Theorem participants_unique_invariant st0 st :
  participants_unique st0 -> reachable st0 st -> participants_unique st.
Proof.
  intros Hinit Hreach. induction Hreach as [|st request c _ IH].
  - exact Hinit.
  - now apply serve_preserves_unique.
Qed.

Lemma participants_unique_invariant_witness :
  participants_unique
    (serve_all
       [(with_session "anna", PostSignup "Chess Club" "new@mergington.edu");
        (with_session "anna", PostSignup "Chess Club" "new@mergington.edu");
        (with_session "anna", DeleteUnregister "Chess Club" "new@mergington.edu");
        (anonymous, PostLogin (login_body "anna" "pw1"));
        (anonymous, GetActivities);
        (with_session "anna", PostLogout)]
       scenario_store).
Proof.
  apply (participants_unique_invariant scenario_store).
  - unfold participants_unique. evaluate_decidable.
  - apply serve_all_reachable.
Defined.

(** ** Login *)

Lemma login_accepts st request u p :
  TEACHERS st !! PyStr.strip u = Some p ->
  PyStr.has_control_character (PyStr.strip u) = false ->
  login request (login_body u p) st = (Returns (logged_in (PyStr.strip u)), st).
Proof.
  intros H Hc. unfold login, login_body.
  rewrite lookup_insert_eq. simpl.
  rewrite lookup_insert_ne by discriminate. rewrite lookup_insert_eq. simpl.
  unfold bind, read. simpl. rewrite H. simpl.
  now rewrite String.eqb_refl, Hc.
Qed.

Lemma login_cookie_refused st request u p :
  TEACHERS st !! PyStr.strip u = Some p ->
  PyStr.has_control_character (PyStr.strip u) = true ->
  login request (login_body u p) st = (Raises CookieError, st).
Proof.
  intros H Hc. unfold login, login_body.
  rewrite lookup_insert_eq. simpl.
  rewrite lookup_insert_ne by discriminate. rewrite lookup_insert_eq. simpl.
  unfold bind, read. simpl. rewrite H. simpl.
  now rewrite String.eqb_refl, Hc.
Qed.

Lemma login_rejects st request u p :
  TEACHERS st !! PyStr.strip u <> Some p ->
  login request (login_body u p) st = (Raises BadCredentials, st).
Proof.
  intros H. unfold login, login_body.
  rewrite lookup_insert_eq. simpl.
  rewrite lookup_insert_ne by discriminate. rewrite lookup_insert_eq. simpl.
  unfold bind, read. simpl.
  destruct (TEACHERS st !! PyStr.strip u) as [stored|]; [|reflexivity]. simpl.
  destruct (String.eqb_spec stored p) as [->|_]; [congruence | reflexivity].
Qed.

(** White space around the submitted user name is invisible to login. *)
Lemma login_ignores_surrounding_blanks st request l u r p :
  PyStr.blank l -> PyStr.blank r ->
  login request (login_body (l +:+ u +:+ r) p) st
  = login request (login_body u p) st.
Proof.
  intros Hl Hr.
  destruct (decide (TEACHERS st !! PyStr.strip u = Some p)) as [H|H].
  - destruct (PyStr.has_control_character (PyStr.strip u)) eqn:Hc.
    + rewrite (login_cookie_refused st request u p H Hc).
      rewrite <- (strip_surrounded l u r Hl Hr) in H, Hc.
      now apply login_cookie_refused.
    + rewrite (login_accepts st request u p H Hc).
      rewrite <- (strip_surrounded l u r Hl Hr) in H, Hc |- *.
      now apply login_accepts.
  - rewrite (login_rejects st request u p H).
    rewrite <- (strip_surrounded l u r Hl Hr) in H.
    now apply login_rejects.
Qed.








(** * Further properties of app.py *)

(** ** The guard and the identity query *)

Lemma require_teacher_cases st request :
  require_teacher request st
  = (match cookies request !! session_user with
     | Some user =>
         if PyStr.truthy user && bool_decide (is_Some (TEACHERS st !! user))
         then Returns user else Raises Unauthorized
     | None => Raises Unauthorized
     end, st).
Proof.
  unfold require_teacher, bind, read. simpl.
  destruct (cookies request !! session_user) as [user|]; [|reflexivity].
  destruct (PyStr.truthy user); simpl; [|reflexivity].
  now destruct (bool_decide _).
Qed.

(** The guard looks at the teacher directory only. *)
Lemma require_teacher_same_directory st st' request :
  TEACHERS st' = TEACHERS st ->
  fst (require_teacher request st') = fst (require_teacher request st).
Proof. intros H. rewrite !require_teacher_cases. simpl. now rewrite H. Qed.

Lemma me_cases st request :
  me request st
  = (Returns (identity_report
                (match cookies request !! session_user with
                 | Some user =>
                     if PyStr.truthy user && bool_decide (is_Some (TEACHERS st !! user))
                     then Some user else None
                 | None => None
                 end)), st).
Proof.
  unfold me, bind, read. simpl.
  destruct (cookies request !! session_user) as [user|]; [|reflexivity].
  now destruct (PyStr.truthy user && bool_decide _).
Qed.

(** me() and require_teacher() decide alike: the identity query answers
    authenticated true with the user name exactly when the guard returns
    that user name for the same request, and authenticated false exactly
    when the guard raises; it never raises itself and leaves the store
    alone. *)
Theorem me_reports_guard_verdict st request :
  me request st
  = (Returns (identity_report (principal (fst (require_teacher request st)))), st).
Proof.
  rewrite require_teacher_cases, me_cases. simpl.
  destruct (cookies request !! session_user) as [user|]; [|reflexivity].
  now destruct (PyStr.truthy user && bool_decide _).
Qed.

(** ** Which requests write *)

Lemma POST_signup_cases st request activity_name email :
  POST_signup activity_name email request st
  = match principal (fst (require_teacher request st)) with
    | None => (Raises Unauthorized, st)
    | Some _ =>
        match activities st !! activity_name with
        | None => (Raises NotFound, st)
        | Some a =>
            if bool_decide (email ∈ participants a)
            then (Raises Conflict, st)
            else (Returns (signed_up email activity_name),
                  set_activities st
                    (<[activity_name := append_participant a email]> (activities st)))
        end
    end.
Proof.
  destruct (authorized_dec st request) as [[u Hauth]|Hno].
  - rewrite (require_teacher_accepts _ _ _ Hauth). simpl.
    unfold POST_signup. rewrite (guarded_accepts _ _ _ _ Hauth).
    destruct (activities st !! activity_name) as [a|] eqn:Hknown.
    + case_bool_decide as Hin.
      * now apply (signup_for_activity_conflict _ _ a).
      * now apply signup_for_activity_fresh.
    + now apply signup_for_activity_unknown.
  - rewrite (require_teacher_rejects _ _ Hno). simpl.
    now apply guarded_rejects.
Qed.

(** The store changes only through a signup that succeeds: if a request
    leaves the store different from what it was, the request is a signup
    that passed the guard, for a known activity and an email that was not
    among its participants, it was answered with the confirmation, and
    the new store differs by that one appended email. *)
Theorem store_changes_only_by_signup st request c :
  snd (serve request c st) <> st ->
  exists activity_name email u a,
    c = PostSignup activity_name email
    /\ authorized st request u
    /\ activities st !! activity_name = Some a
    /\ (email ∉ participants a)
    /\ serve request c st
       = (Returns (signed_up email activity_name),
          set_activities st
            (<[activity_name := append_participant a email]> (activities st))).
Proof.
  intros Hchanged.
  destruct c as [| |activity_name email|activity_name email|credentials| |];
    simpl in *; try (now exfalso; apply Hchanged).
  - destruct (authorized_dec st request) as [[u Hauth]|Hno].
    + unfold POST_signup in *. rewrite (guarded_accepts _ _ _ _ Hauth) in *.
      destruct (activities st !! activity_name) as [a|] eqn:Hknown.
      * destruct (decide (email ∈ participants a)) as [Hin|Hfresh].
        -- rewrite (signup_for_activity_conflict _ _ _ _ _ Hknown Hin) in Hchanged.
           now exfalso; apply Hchanged.
        -- exists activity_name, email, u, a.
           rewrite (signup_for_activity_fresh _ _ _ _ _ Hknown Hfresh).
           repeat (split; [assumption || reflexivity|]). reflexivity.
      * rewrite (signup_for_activity_unknown _ _ _ _ Hknown) in Hchanged.
        now exfalso; apply Hchanged.
    + unfold POST_signup in Hchanged.
      rewrite (guarded_rejects _ _ _ Hno) in Hchanged.
      now exfalso; apply Hchanged.
  - exfalso. apply Hchanged.
    destruct (authorized_dec st request) as [[u Hauth]|Hno].
    + now rewrite (unregister_is_noop _ _ _ _ _ Hauth).
    + unfold DELETE_unregister. now rewrite (guarded_rejects _ _ _ Hno).
  - exfalso. apply Hchanged. apply login_store.
  - exfalso. apply Hchanged. apply me_store.
Qed.

Lemma store_changes_only_by_signup_witness :
  exists activity_name email u a,
    PostSignup "Chess Club" "new@mergington.edu" = PostSignup activity_name email
    /\ authorized scenario_store (with_session "anna") u
    /\ activities scenario_store !! activity_name = Some a
    /\ (email ∉ participants a)
    /\ serve (with_session "anna") (PostSignup "Chess Club" "new@mergington.edu")
         scenario_store
       = (Returns (signed_up email activity_name),
          set_activities scenario_store
            (<[activity_name := append_participant a email]>
               (activities scenario_store))).
Proof.
  apply (store_changes_only_by_signup scenario_store (with_session "anna")
           (PostSignup "Chess Club" "new@mergington.edu")).
  intros H.
  apply (f_equal (fun st => (fun a => length (participants a))
                            <$> activities st !! "Chess Club")) in H.
  vm_compute in H. discriminate H.
Defined.

(** ** What no request can do *)

Lemma reachable_TEACHERS st0 st : reachable st0 st -> TEACHERS st = TEACHERS st0.
Proof.
  induction 1 as [|st request c _ IH]; [reflexivity|].
  now rewrite serve_TEACHERS.
Qed.

(** The server keeps no session and never touches TEACHERS: in every
    state reached from [st0] the teacher directory is that of [st0], and
    the guard and the identity query give a request the verdict they gave
    it in [st0].  In particular a cookie that was once accepted is
    accepted for ever, also after logout and after any other client's
    requests. *)
Theorem authorization_is_never_revoked st0 st request :
  reachable st0 st ->
  TEACHERS st = TEACHERS st0
  /\ fst (require_teacher request st) = fst (require_teacher request st0)
  /\ fst (me request st) = fst (me request st0).
Proof.
  intros Hreach. pose proof (reachable_TEACHERS _ _ Hreach) as HT.
  split; [exact HT|]. split.
  - now apply require_teacher_same_directory.
  - rewrite !me_cases. simpl. now rewrite HT.
Qed.

Lemma authorization_is_never_revoked_witness :
  fst (require_teacher (with_session "anna")
         (serve_all [(anonymous, PostLogin (login_body "anna" "pw1"));
                     (with_session "anna", PostLogout)] scenario_store))
  = Returns "anna".
Proof.
  pose proof (authorization_is_never_revoked scenario_store
                (serve_all [(anonymous, PostLogin (login_body "anna" "pw1"));
                            (with_session "anna", PostLogout)] scenario_store)
                (with_session "anna") (serve_all_reachable _ _)) as (_ & H & _).
  rewrite H. vm_compute. reflexivity.
Defined.

(** ** The registry only grows *)

Lemma grown_from_refl a : grown_from a a.
Proof. now repeat split. Qed.

Lemma grown_from_append a0 a email :
  grown_from a0 a -> grown_from a0 (append_participant a email).
Proof.
  intros (Hd & Hs & Hm & Hp). repeat split; simpl; try assumption.
  now apply prefix_app_r.
Qed.

(** No request creates, deletes or renames an activity, changes a
    description, a schedule or a max_participants, or removes or reorders
    participants: in every state reached from [st0], the registry has the
    activity names of [st0], and each activity is what it was in [st0]
    with, possibly, more participants appended. *)
Theorem registry_only_grows st0 st :
  reachable st0 st ->
  forall activity_name,
    option_Forall2 grown_from (activities st0 !! activity_name)
                              (activities st !! activity_name).
Proof.
  induction 1 as [|st request c _ IH]; intros activity_name.
  - destruct (activities st0 !! activity_name); constructor.
    apply grown_from_refl.
  - specialize (IH activity_name).
    destruct (serve_store st request c)
      as [->|(n & a & email & Hknown & _ & ->)]; [exact IH|].
    simpl. destruct (decide (n = activity_name)) as [->|Hne].
    + rewrite lookup_insert_eq. rewrite Hknown in IH.
      inversion IH as [a0 a' Hg|]; subst. constructor.
      now apply grown_from_append.
    + now rewrite lookup_insert_ne.
Qed.

Lemma registry_only_grows_witness :
  option_Forall2 grown_from (activities scenario_store !! "Math Club")
                            (activities math_club_full !! "Math Club")
  /\ option_Forall2 grown_from (activities scenario_store !! "Knitting")
                               (activities math_club_full !! "Knitting").
Proof.
  split; apply (registry_only_grows scenario_store math_club_full);
    apply serve_all_reachable.
Defined.

(** ** Signups compose *)

Lemma store_eq (st st' : Store) :
  TEACHERS st = TEACHERS st' -> activities st = activities st' -> st = st'.
Proof. destruct st, st'. simpl. now intros -> ->. Qed.

Lemma POST_signup_TEACHERS st request activity_name email :
  TEACHERS (snd (POST_signup activity_name email request st)) = TEACHERS st.
Proof. exact (serve_TEACHERS st request (PostSignup activity_name email)). Qed.

(** What a signup answers, and what it makes of its activity, depends on
    the directory and on that activity alone. *)
Lemma POST_signup_local st st' request activity_name email :
  TEACHERS st' = TEACHERS st ->
  activities st' !! activity_name = activities st !! activity_name ->
  fst (POST_signup activity_name email request st')
  = fst (POST_signup activity_name email request st)
  /\ activities (snd (POST_signup activity_name email request st'))
     = match activities (snd (POST_signup activity_name email request st))
             !! activity_name with
       | Some a => <[activity_name := a]> (activities st')
       | None => activities st'
       end.
Proof.
  intros HT Hact. rewrite !POST_signup_cases.
  rewrite (require_teacher_same_directory _ _ _ HT). rewrite Hact.
  destruct (principal (fst (require_teacher request st))) as [u|]; simpl.
  - destruct (activities st !! activity_name) as [a|] eqn:Hknown.
    + destruct (bool_decide (email ∈ participants a)); simpl.
      * rewrite Hknown. split; [reflexivity|].
        symmetry. apply insert_id. now rewrite Hact.
      * rewrite lookup_insert_eq. now split.
    + simpl. rewrite Hknown. now split.
  - destruct (activities st !! activity_name) as [a|] eqn:Hknown.
    + split; [reflexivity|]. symmetry. apply insert_id. now rewrite Hact.
    + now split.
Qed.

Lemma POST_signup_other st request activity_name email other :
  other <> activity_name ->
  activities (snd (POST_signup activity_name email request st)) !! other
  = activities st !! other.
Proof.
  intros Hne.
  destruct (POST_signup_local st st request activity_name email eq_refl eq_refl)
    as [_ ->].
  destruct (_ !! activity_name); [|reflexivity].
  now rewrite lookup_insert_ne.
Qed.

(** Signups for two different activities do not interfere: whichever of
    the two requests is served first, each gets the same answer and the
    store ends up the same. *)
Theorem signups_for_different_activities_commute
    st request1 name1 email1 request2 name2 email2 :
  name1 <> name2 ->
  fst (POST_signup name1 email1 request1 (snd (POST_signup name2 email2 request2 st)))
  = fst (POST_signup name1 email1 request1 st)
  /\ fst (POST_signup name2 email2 request2 (snd (POST_signup name1 email1 request1 st)))
     = fst (POST_signup name2 email2 request2 st)
  /\ snd (POST_signup name2 email2 request2 (snd (POST_signup name1 email1 request1 st)))
     = snd (POST_signup name1 email1 request1 (snd (POST_signup name2 email2 request2 st))).
Proof.
  intros Hne.
  set (st1 := snd (POST_signup name1 email1 request1 st)).
  set (st2 := snd (POST_signup name2 email2 request2 st)).
  assert (HT1 : TEACHERS st1 = TEACHERS st) by apply POST_signup_TEACHERS.
  assert (HT2 : TEACHERS st2 = TEACHERS st) by apply POST_signup_TEACHERS.
  assert (H12 : activities st1 !! name2 = activities st !! name2)
    by (apply POST_signup_other; congruence).
  assert (H21 : activities st2 !! name1 = activities st !! name1)
    by (apply POST_signup_other; congruence).
  destruct (POST_signup_local st st2 request1 name1 email1 HT2 H21) as [Ho1 Hs1].
  destruct (POST_signup_local st st1 request2 name2 email2 HT1 H12) as [Ho2 Hs2].
  split; [exact Ho1|]. split; [exact Ho2|].
  apply store_eq.
  - rewrite !POST_signup_TEACHERS. congruence.
  - pose proof (proj2 (POST_signup_local st st request1 name1 email1 eq_refl eq_refl))
      as Hst1.
    pose proof (proj2 (POST_signup_local st st request2 name2 email2 eq_refl eq_refl))
      as Hst2.
    fold st1 in Hs1, Hst1. fold st2 in Hs2, Hst2. rewrite Hs1, Hs2.
    destruct (activities st1 !! name1) as [a1|] eqn:E1,
             (activities st2 !! name2) as [a2|] eqn:E2;
      rewrite Hst1, Hst2; try reflexivity.
    apply insert_insert_ne. congruence.
Qed.

Lemma signups_for_different_activities_commute_witness :
  snd (POST_signup "Art Club" "b@mergington.edu" (with_session "anna")
         (snd (POST_signup "Chess Club" "a@mergington.edu" (with_session "anna")
                 scenario_store)))
  = snd (POST_signup "Chess Club" "a@mergington.edu" (with_session "anna")
           (snd (POST_signup "Art Club" "b@mergington.edu" (with_session "anna")
                   scenario_store))).
Proof.
  apply (signups_for_different_activities_commute scenario_store
           (with_session "anna") "Chess Club" "a@mergington.edu"
           (with_session "anna") "Art Club" "b@mergington.edu").
  discriminate.
Defined.

Lemma serve_all_signup st request activity_name email rest :
  serve_all ((request, PostSignup activity_name email) :: rest) st
  = serve_all rest (snd (POST_signup activity_name email request st)).
Proof. reflexivity. Qed.

(** Participants are kept in the order in which they signed up: signing
    up pairwise different emails, none of them a participant yet, one
    after the other for a known activity, with requests the guard
    accepts, leaves the activity with its former participants followed by
    these emails in the order of the requests, and otherwise unchanged. *)
Theorem signups_keep_their_order st request u activity_name a emails :
  authorized st request u ->
  activities st !! activity_name = Some a ->
  NoDup emails ->
  (forall email, email ∈ emails -> email ∉ participants a) ->
  exists a',
    activities (serve_all (signups request activity_name emails) st)
      !! activity_name = Some a'
    /\ participants a' = participants a ++ emails
    /\ description a' = description a
    /\ schedule a' = schedule a
    /\ max_participants a' = max_participants a.
Proof.
  intros Hauth Hknown Hnd Hfresh.
  revert st a Hauth Hknown Hfresh.
  induction Hnd as [|email emails Hnotin Hnd IH]; intros st a Hauth Hknown Hfresh.
  - exists a. simpl. rewrite app_nil_r. now repeat split.
  - unfold signups. simpl map. rewrite serve_all_signup.
    unfold POST_signup at 1. rewrite (guarded_accepts _ _ _ _ Hauth).
    rewrite (signup_for_activity_fresh _ _ a).
    + simpl snd.
      destruct (IH (set_activities st
                      (<[activity_name := append_participant a email]> (activities st)))
                   (append_participant a email)) as (a' & Hl & Hp & Hd & Hs & Hm).
      * exact Hauth.
      * apply lookup_insert_eq.
      * intros e He. simpl. rewrite elem_of_app, list_elem_of_singleton.
        intros [Hin | ->].
        -- apply (Hfresh e); [now right | exact Hin].
        -- now apply Hnotin.
      * exists a'. split; [exact Hl|].
        split; [|now repeat split].
        rewrite Hp. simpl. now rewrite <- app_assoc.
    + exact Hknown.
    + apply Hfresh. now left.
Qed.

Lemma signups_keep_their_order_witness :
  exists a',
    activities math_club_full !! "Math Club" = Some a'
    /\ participants a'
       = ["james@mergington.edu"; "benjamin@mergington.edu"]
         ++ ["s1@mergington.edu"; "s2@mergington.edu"; "s3@mergington.edu";
             "s4@mergington.edu"; "s5@mergington.edu"; "s6@mergington.edu";
             "s7@mergington.edu"; "s8@mergington.edu"].
Proof.
  destruct (signups_keep_their_order scenario_store (with_session "anna") "anna"
              "Math Club"
              (mkActivity "Solve challenging problems and participate in math competitions"
                 "Tuesdays, 3:30 PM - 4:30 PM" 10
                 ["james@mergington.edu"; "benjamin@mergington.edu"])
              ["s1@mergington.edu"; "s2@mergington.edu"; "s3@mergington.edu";
               "s4@mergington.edu"; "s5@mergington.edu"; "s6@mergington.edu";
               "s7@mergington.edu"; "s8@mergington.edu"])
    as (a' & Hl & Hp & _).
  - evaluate_authorized.
  - vm_compute. reflexivity.
  - evaluate_decidable.
  - intros email He. simpl.
    assert (Hall : Forall (fun e => e ∉ ["james@mergington.edu"; "benjamin@mergington.edu"])
                     ["s1@mergington.edu"; "s2@mergington.edu"; "s3@mergington.edu";
                      "s4@mergington.edu"; "s5@mergington.edu"; "s6@mergington.edu";
                      "s7@mergington.edu"; "s8@mergington.edu"])
      by evaluate_decidable.
    rewrite Forall_forall in Hall. now apply Hall.
  - exists a'. split; [exact Hl | exact Hp].
Defined.

(** ** A whole session *)




(** ** Login bodies of any shape *)

Lemma login_cases st request credentials :
  login request credentials st
  = (match default (JStr "") (credentials !! "username") with
     | JStr raw =>
         match TEACHERS st !! PyStr.strip raw with
         | Some stored =>
             if str_eq_json stored (default (JStr "") (credentials !! "password"))
             then
               if PyStr.has_control_character (PyStr.strip raw)
               then Raises CookieError
               else Returns (logged_in (PyStr.strip raw))
             else Raises BadCredentials
         | None => Raises BadCredentials
         end
     | _ => Raises AttributeError
     end, st).
Proof.
  unfold login.
  destruct (default (JStr "") (credentials !! "username")); try reflexivity.
  unfold bind, read. simpl.
  destruct (TEACHERS st !! PyStr.strip s); [|reflexivity].
  destruct (str_eq_json _ _); [|reflexivity].
  now destruct (PyStr.has_control_character _).
Qed.

Lemma login_body_username u p : login_body u p !! "username" = Some (JStr u).
Proof. unfold login_body. apply lookup_insert_eq. Qed.

Lemma login_body_password u p : login_body u p !! "password" = Some (JStr p).
Proof.
  unfold login_body. rewrite lookup_insert_ne by discriminate.
  apply lookup_insert_eq.
Qed.

(** login() reads the two keys "username" and "password" of the body and
    nothing else, and a key that is missing counts as the empty string:
    a body whose user name and password, after these defaults, are the
    strs [u] and [p] is answered like the body {"username": u,
    "password": p}.  So a body without "password" logs in exactly the
    teachers whose password is empty. *)
Theorem login_reads_two_fields st request credentials u p :
  default (JStr "") (credentials !! "username") = JStr u ->
  default (JStr "") (credentials !! "password") = JStr p ->
  login request credentials st = login request (login_body u p) st.
Proof.
  intros Hu Hp. rewrite !login_cases.
  now rewrite Hu, Hp, login_body_username, login_body_password.
Qed.

Lemma login_reads_two_fields_witness :
  login anonymous {[ "username" := JStr "anna"; "remember" := JBool true ]}
    (startup {[ "anna" := "" ]})
  = (Returns (logged_in "anna"), startup {[ "anna" := "" ]}).
Proof.
  rewrite (login_reads_two_fields (startup {[ "anna" := "" ]}) anonymous
             {[ "username" := JStr "anna"; "remember" := JBool true ]} "anna" "").
  - vm_compute. reflexivity.
  - vm_compute. reflexivity.
  - vm_compute. reflexivity.
Defined.

(** A user name that is present in the body but is not a str (a number,
    null, a list, ...) makes login() fail on .strip(): the exception is
    no HTTPException, the client gets status 500, whatever the password
    and the directory; the store is unchanged. *)
Theorem login_non_string_username st request credentials v :
  credentials !! "username" = Some v ->
  not_a_str v ->
  login request credentials st = (Raises AttributeError, st)
  /\ http_status (fst (login request credentials st)) = 500.
Proof.
  intros Hv Hns. rewrite login_cases, Hv. simpl.
  destruct v; simpl in Hns; try contradiction; now split.
Qed.

Lemma login_non_string_username_witness :
  login anonymous {[ "username" := JNum 7; "password" := JStr "pw1" ]} scenario_store
  = (Raises AttributeError, scenario_store).
Proof.
  apply (login_non_string_username scenario_store anonymous
           {[ "username" := JNum 7; "password" := JStr "pw1" ]} (JNum 7)).
  - vm_compute. reflexivity.
  - exact I.
Defined.

(** Against a directory whose passwords are strs (the only ones [Store]
    holds), a password that is not a str never matches: when the user
    name is a str or is missing, a body whose password is a number, a
    boolean, null, a list or an object is answered 401, also when the
    stored str spells that value ("1234" against 1234). *)
Theorem login_non_string_password st request credentials u v :
  default (JStr "") (credentials !! "username") = JStr u ->
  credentials !! "password" = Some v ->
  not_a_str v ->
  login request credentials st = (Raises BadCredentials, st)
  /\ http_status (fst (login request credentials st)) = 401.
Proof.
  intros Hu Hv Hns. rewrite login_cases, Hu, Hv. simpl.
  destruct (TEACHERS st !! PyStr.strip u); [|now split].
  destruct v; simpl in Hns; try contradiction; now split.
Qed.

Lemma login_non_string_password_witness :
  login anonymous {[ "username" := JStr "carl"; "password" := JNum 1234 ]}
    (startup {[ "carl" := "1234" ]})
  = (Raises BadCredentials, startup {[ "carl" := "1234" ]}).
Proof.
  apply (login_non_string_password (startup {[ "carl" := "1234" ]}) anonymous
           {[ "username" := JStr "carl"; "password" := JNum 1234 ]}
           "carl" (JNum 1234)).
  - vm_compute. reflexivity.
  - vm_compute. reflexivity.
  - exact I.
Defined.

(** ** The status of every answer *)

(** The status codes the handlers of each route can produce, in every
    store, once FastAPI has validated the parameters of the request and
    calls them (a [Call] carries the email of signup and unregister and
    the JSON object of login; a request without them is answered by the
    framework's own validation and reaches no handler, so it is no
    [Call]): / always redirects (307); the listing, logout
    and the identity query always answer 200; signup answers 200, 400,
    401 or 404; unregister answers 200 or 401 and nothing else; login
    answers 200, 401 or 500. *)
Theorem statuses_by_route st request c :
  let code := http_status (fst (serve request c st)) in
  match c with
  | GetRoot => code = 307
  | GetActivities | PostLogout | GetMe => code = 200
  | PostSignup _ _ => code = 200 \/ code = 400 \/ code = 401 \/ code = 404
  | DeleteUnregister _ _ => code = 200 \/ code = 401
  | PostLogin _ => code = 200 \/ code = 401 \/ code = 500
  end.
Proof.
  destruct c as [| |activity_name email|activity_name email|credentials| |];
    simpl; try reflexivity.
  - rewrite POST_signup_cases.
    destruct (principal _); [|auto].
    destruct (activities st !! activity_name) as [a|]; [|auto].
    destruct (bool_decide _); auto.
  - destruct (authorized_dec st request) as [[u Hauth]|Hno].
    + rewrite (unregister_is_noop _ _ _ _ _ Hauth). auto.
    + unfold DELETE_unregister. rewrite (guarded_rejects _ _ _ Hno). auto.
  - rewrite login_cases. simpl.
    destruct (default (JStr "") (credentials !! "username")); auto.
    destruct (TEACHERS st !! PyStr.strip s); [|auto].
    destruct (str_eq_json _ _); [|auto].
    destruct (PyStr.has_control_character _); auto.
  - rewrite me_cases. simpl.
    destruct (cookies request !! session_user) as [user|]; [|reflexivity].
    now destruct (_ && _).
Qed.

(** ** What strip removes *)

Section strip_shape.
Import PyStr.

Local Abbreviation ws := (fun c : ascii => isspace c = true).

Lemma lstrip_split (x : list ascii) :
  exists l, x = l ++ lstrip_chars x /\ Forall ws l.
Proof.
  induction x as [|c x (l & Hx & Hl)]; simpl.
  - exists []. split; [reflexivity | constructor].
  - destruct (isspace c) eqn:Hc.
    + exists (c :: l). split; [simpl; congruence | now constructor].
    + exists []. split; [reflexivity | constructor].
Qed.

Lemma lstrip_starts_clean (x : list ascii) : starts_clean (lstrip_chars x).
Proof.
  induction x as [|c x IH]; intros d y; simpl.
  - discriminate.
  - destruct (isspace c) eqn:Hc; [apply IH|].
    intros H. injection H as <- _. exact Hc.
Qed.

Lemma lstrip_clean (x : list ascii) : starts_clean x -> lstrip_chars x = x.
Proof.
  destruct x as [|c x]; [reflexivity|]. intros H. simpl.
  now rewrite (H c x eq_refl).
Qed.

Lemma rstrip_split (x : list ascii) :
  exists r, x = rstrip_chars x ++ r /\ Forall ws r.
Proof.
  destruct (lstrip_split (rev x)) as (l & Hx & Hl).
  exists (rev l). split; [|now apply Forall_rev].
  unfold rstrip_chars. rewrite <- rev_app_distr, <- Hx. now rewrite rev_involutive.
Qed.

Lemma rstrip_ends_clean (x : list ascii) : starts_clean (rev (rstrip_chars x)).
Proof.
  unfold rstrip_chars. rewrite rev_involutive. apply lstrip_starts_clean.
Qed.

Lemma rstrip_keeps_start (x : list ascii) :
  starts_clean x -> starts_clean (rstrip_chars x).
Proof.
  intros H c y Hy. destruct (rstrip_split x) as (r & Hx & _).
  rewrite Hy in Hx. simpl in Hx. exact (H c _ Hx).
Qed.

Lemma rstrip_clean (x : list ascii) : starts_clean (rev x) -> rstrip_chars x = x.
Proof.
  intros H. unfold rstrip_chars. rewrite lstrip_clean by exact H.
  apply rev_involutive.
Qed.

Lemma strip_chars_fixed (x : list ascii) :
  starts_clean x -> starts_clean (rev x) ->
  rstrip_chars (lstrip_chars x) = x.
Proof. intros H1 H2. rewrite lstrip_clean by exact H1. now apply rstrip_clean. Qed.

Lemma string_of_list_ascii_app (l m : list ascii) :
  string_of_list_ascii (l ++ m) = string_of_list_ascii l +:+ string_of_list_ascii m.
Proof. induction l as [|c l IH]; simpl; [reflexivity | now rewrite IH]. Qed.

Lemma strip_chars_of (s : string) :
  list_ascii_of_string (strip s)
  = rstrip_chars (lstrip_chars (list_ascii_of_string s)).
Proof. unfold strip. apply list_ascii_of_string_of_list_ascii. Qed.

Lemma strip_trimmed (s : string) : trimmed (strip s).
Proof.
  intros c rest. split; intros H;
    apply (f_equal list_ascii_of_string) in H; rewrite strip_chars_of in H.
  - simpl in H.
    exact (rstrip_keeps_start _ (lstrip_starts_clean _) c _ H).
  - rewrite list_ascii_of_append in H. simpl in H.
    apply (rstrip_ends_clean (lstrip_chars (list_ascii_of_string s)) c
             (rev (list_ascii_of_string rest))).
    rewrite H, rev_app_distr. reflexivity.
Qed.

Lemma trimmed_strip (s : string) : trimmed s -> strip s = s.
Proof.
  intros H. unfold strip.
  rewrite strip_chars_fixed; [apply string_of_list_ascii_of_string| |].
  - intros c y Hy. apply (proj1 (H c (string_of_list_ascii y))).
    rewrite <- (string_of_list_ascii_of_string s), Hy. reflexivity.
  - intros c y Hy. apply (proj2 (H c (string_of_list_ascii (rev y)))).
    rewrite <- (string_of_list_ascii_of_string s).
    rewrite <- (rev_involutive (list_ascii_of_string s)), Hy. simpl.
    now rewrite string_of_list_ascii_app.
Qed.

(** strip() takes away white space at the two ends and nothing else:
    every string is some white space, then its stripped form, then some
    white space, and the stripped form neither begins nor ends with a
    white-space character. *)
Theorem strip_removes_surrounding_blanks (s : string) :
  exists l r,
    s = l +:+ strip s +:+ r
    /\ blank l /\ blank r
    /\ trimmed (strip s).
Proof.
  destruct (lstrip_split (list_ascii_of_string s)) as (l & Hs & Hl).
  destruct (rstrip_split (lstrip_chars (list_ascii_of_string s))) as (r & Hm & Hr).
  exists (string_of_list_ascii l), (string_of_list_ascii r).
  split; [|split; [|split]].
  - unfold strip. rewrite <- !string_of_list_ascii_app, <- Hm, <- Hs.
    symmetry. apply string_of_list_ascii_of_string.
  - unfold blank. now rewrite list_ascii_of_string_of_list_ascii.
  - unfold blank. now rewrite list_ascii_of_string_of_list_ascii.
  - apply strip_trimmed.
Qed.

End strip_shape.

(** Stripping twice is stripping once, so the user name that a successful
    login put in the cookie logs in like the user name that was typed:
    login() answers {"username": u.strip(), "password": p} as it answers
    {"username": u, "password": p}. *)
Theorem login_same_for_stripped_name st request u p :
  PyStr.strip (PyStr.strip u) = PyStr.strip u
  /\ login request (login_body (PyStr.strip u) p) st
     = login request (login_body u p) st.
Proof.
  assert (H : PyStr.strip (PyStr.strip u) = PyStr.strip u)
    by (apply trimmed_strip, strip_trimmed).
  split; [exact H|].
  rewrite !login_cases, !login_body_username, !login_body_password. simpl.
  now rewrite H.
Qed.

(** ** Start-up *)

Section startup_facts.
Import Startup.

Lemma add_teacher_entry acc t u p :
  teacher_entry t u p -> add_teacher acc t = Directory (<[u := p]> acc).
Proof. intros (fields & -> & Hu & Hp). simpl. now rewrite Hu, Hp. Qed.


Lemma empty_directory_rejects st request :
  TEACHERS st = ∅ -> forall u, ~ authorized st request u.
Proof.
  intros HT u (_ & _ & Hin). rewrite HT, lookup_empty in Hin. now destruct Hin.
Qed.

Lemma empty_directory_freezes st request c :
  TEACHERS st = ∅ -> snd (serve request c st) = st.
Proof.
  intros HT. pose proof (empty_directory_rejects st request HT) as Hno.
  destruct c as [| |activity_name email|activity_name email|credentials| |];
    simpl; try reflexivity.
  - unfold POST_signup. now rewrite (guarded_rejects _ _ _ Hno).
  - unfold DELETE_unregister. now rewrite (guarded_rejects _ _ _ Hno).
  - apply login_store.
  - apply me_store.
Qed.

(** Without teachers.json, or with one that has no "teachers" key, the
    module starts with an empty directory, and the application is
    read-only for good: the store never leaves its initial value, every
    login raises, every signup and unregister is answered Unauthorized,
    and the identity query reports every request as not authenticated. *)
Theorem no_teachers_means_read_only file :
  file = Missing
  \/ (exists fields, file = Parsed (JObj fields) /\ obj_get fields "teachers" = None) ->
  load_TEACHERS file = Directory ∅
  /\ forall st, reachable (startup ∅) st ->
       st = startup ∅
       /\ forall request,
            (forall credentials, exists e, fst (login request credentials st) = Raises e)
            /\ (forall activity_name email,
                  POST_signup activity_name email request st = (Raises Unauthorized, st)
                  /\ DELETE_unregister activity_name email request st
                     = (Raises Unauthorized, st))
            /\ me request st = (Returns (identity_report None), st).
Proof.
  intros Hfile. split.
  - destruct Hfile as [->|(fields & -> & Hnone)]; [reflexivity|].
    simpl. now rewrite Hnone.
  - intros st Hreach.
    assert (Hst : st = startup ∅).
    { induction Hreach as [|st request c _ IH]; [reflexivity|].
      rewrite IH. now apply empty_directory_freezes. }
    split; [exact Hst|]. subst st. intros request.
    pose proof (empty_directory_rejects (startup ∅) request eq_refl) as Hno.
    split; [|split].
    + intros credentials. rewrite login_cases. simpl.
      destruct (default (JStr "") (credentials !! "username")); eauto.
    + intros activity_name email. split; now apply guarded_rejects.
    + rewrite me_cases. simpl.
      destruct (cookies request !! session_user) as [user|]; [|reflexivity].
      now rewrite andb_false_r.
Qed.

Lemma no_teachers_means_read_only_witness :
  load_TEACHERS Missing = Directory ∅
  /\ serve_all [(with_session "anna", PostSignup "Chess Club" "new@mergington.edu");
                (anonymous, PostLogin (login_body "anna" "pw1"))] (startup ∅)
     = startup ∅.
Proof.
  destruct (no_teachers_means_read_only Missing) as [Hload Hfrozen];
    [now left|].
  split; [exact Hload|].
  apply Hfrozen. apply serve_all_reachable.
Defined.



(** One entry without "username" or without "password" is enough to stop
    the application from starting: when the entries before it are well
    formed, the comprehension raises KeyError, which the try statement
    does not catch, and no directory is built at all. *)
Theorem incomplete_entry_stops_import fields good entries bad rest :
  obj_get fields "teachers" = Some (JList (good ++ JObj bad :: rest)) ->
  Forall2 (fun t e => teacher_entry t e.1 e.2) good entries ->
  obj_get bad "username" = None \/ obj_get bad "password" = None ->
  load_TEACHERS (Parsed (JObj fields)) = Crashes KeyError.
Proof.
  intros Hts Hgood Hbad. simpl. rewrite Hts. clear Hts.
  generalize (∅ : gmap string string).
  induction Hgood as [|t [u p] good entries Ht _ IH]; intros acc; simpl.
  - destruct Hbad as [H|H]; rewrite H; [reflexivity|].
    destruct (obj_get bad "username") as [[]|]; reflexivity.
  - simpl in Ht. rewrite (add_teacher_entry _ _ _ _ Ht). apply IH.
Qed.

Lemma incomplete_entry_stops_import_witness :
  load_TEACHERS
    (Parsed (JObj [("teachers",
       JList [JObj [("username", JStr "anna"); ("password", JStr "pw1")];
              JObj [("username", JStr "ben")]])]))
  = Crashes KeyError.
Proof.
  apply (incomplete_entry_stops_import
           [("teachers",
             JList [JObj [("username", JStr "anna"); ("password", JStr "pw1")];
                    JObj [("username", JStr "ben")]])]
           [JObj [("username", JStr "anna"); ("password", JStr "pw1")]]
           [("anna", "pw1")]
           [("username", JStr "ben")] []).
  - reflexivity.
  - repeat constructor. eexists. split; [reflexivity|]. split; reflexivity.
  - right. reflexivity.
Defined.

End startup_facts.

(** ** Signup and the listing *)

(** A signup answered 200 or 400 leaves the email registered: the
    listing served right after it shows the activity with the email among
    its participants, whether the email was added by this request or was
    there before. *)
Theorem listed_after_signup st request activity_name email :
  http_status (fst (POST_signup activity_name email request st)) = 200
  \/ http_status (fst (POST_signup activity_name email request st)) = 400 ->
  exists acts a,
    fst (get_activities (snd (POST_signup activity_name email request st)))
      = Returns (RActivities acts)
    /\ acts !! activity_name = Some a
    /\ email ∈ participants a.
Proof.
  rewrite POST_signup_cases.
  destruct (principal _); simpl; [|intros [H|H]; discriminate H].
  destruct (activities st !! activity_name) as [a|] eqn:Hknown; simpl;
    [|intros [H|H]; discriminate H].
  case_bool_decide as Hin; simpl; intros _.
  - exists (activities st), a. now repeat split.
  - eexists _, (append_participant a email).
    split; [reflexivity|]. split; [apply lookup_insert_eq|].
    simpl. apply elem_of_app. right. now apply list_elem_of_singleton.
Qed.

Lemma listed_after_signup_witness :
  exists acts a,
    fst (get_activities
           (snd (POST_signup "Chess Club" "daniel@mergington.edu"
                   (with_session "anna") scenario_store)))
      = Returns (RActivities acts)
    /\ acts !! "Chess Club" = Some a
    /\ "daniel@mergington.edu" ∈ participants a.
Proof.
  apply (listed_after_signup scenario_store (with_session "anna")
           "Chess Club" "daniel@mergington.edu").
  right. vm_compute. reflexivity.
Defined.

(** ** Login names that cannot be a cookie *)


